(** * server/scripts/extract_pdf_text.py

    A shallow embedding of the PDF text-extraction script and the proofs of
    its contract.  The script is a thin layer over one call of pdfminer's
    [extract_text]; what it adds is the configuration it passes, the
    normalisation of the outcome into a result dict, the JSON line it
    prints and the exit status.

    Layout of the development:
    - [Py]: the Python values the script manipulates (str as a sequence of
      code points, [str.strip], [len], truthiness, dicts in insertion
      order);
    - [Json]: [json.dumps] with its default settings, and the JSON grammar
      of RFC 8259 against which its output is judged;
    - the interpreter effects the script uses (the call of the extractor,
      [print], [sys.exit], exceptions) as a state-and-exception monad;
    - [extract_pdf_text] and [main], line by line;
    - the properties. *)

From Stdlib Require Import List NArith ZArith Bool String Ascii Lia Floats.
From Stdlib Require Import DecimalFacts DecimalPos DecimalN.
Import ListNotations.

Set Warnings "-inexact-float".

(* ================================================================= *)
(** ** Python values *)

Module Py.

Local Open Scope N_scope.

(** A Python [str] is a sequence of Unicode code points; [len] counts
    code points. *)
Definition str := list N.

(** A string literal of the source.  Every literal of the script is
    ASCII, so a character is its own code point. *)
Definition lit (s : string) : str :=
  map N_of_ascii (list_ascii_of_string s).

Definition len (s : str) : Z := Z.of_nat (List.length s).

(** [Py_UNICODE_ISSPACE]: the code points [str.strip()] removes and
    [str.isspace()] accepts (bidirectional type WS, B or S, or general
    category Zs). *)
Definition isspace (c : N) : bool :=
  ((0x09 <=? c) && (c <=? 0x0D)) ||
  ((0x1C <=? c) && (c <=? 0x20)) ||
  (c =? 0x85) || (c =? 0xA0) || (c =? 0x1680) ||
  ((0x2000 <=? c) && (c <=? 0x200A)) ||
  (c =? 0x2028) || (c =? 0x2029) || (c =? 0x202F) ||
  (c =? 0x205F) || (c =? 0x3000).

Fixpoint lstrip (s : str) : str :=
  match s with
  | [] => []
  | c :: r => if isspace c then lstrip r else s
  end.

Definition rstrip (s : str) : str := rev (lstrip (rev s)).

(** [s.strip()] with no argument. *)
Definition strip (s : str) : str := rstrip (lstrip s).

(** Whitespace-only (the empty string included). *)
Definition blank (s : str) : bool := forallb isspace s.

Definition starts_with_space (s : str) : bool :=
  match s with [] => false | c :: _ => isspace c end.

Definition ends_with_space (s : str) : bool := starts_with_space (rev s).

(** The values the script stores in its result dict. *)
Inductive value :=
| VNone
| VBool (b : bool)
| VInt (n : Z)
| VStr (s : str).

(** Truth value testing, as [not x] and [x if c else y] apply it. *)
Definition truthy (v : value) : bool :=
  match v with
  | VNone => false
  | VBool b => b
  | VInt n => negb (n =? 0)%Z
  | VStr s => negb (len s =? 0)%Z
  end.

Definition str_eqb (a b : str) : bool :=
  if list_eq_dec N.eq_dec a b then true else false.

(** A dict keeps its items in insertion order, which is the order
    [json.dumps] writes them in.  The script only builds dicts by
    literals with distinct keys and never updates them. *)
Definition dict := list (str * value).

Fixpoint get (d : dict) (k : str) : option value :=
  match d with
  | [] => None
  | (k', v) :: r => if str_eqb k' k then Some v else get r k
  end.

End Py.


(* ================================================================= *)
(** ** json.dumps *)

Module Json.
Import Py.
Local Open Scope N_scope.

(** *** The encoder ([json.dumps] with its defaults: [ensure_ascii=True],
    separators [", "] and [": "], no indentation) *)

Definition hexdigit (d : N) : N := if d <? 10 then 48 + d else 87 + d.

(** The hexadecimal digits of [n], most significant first. *)
Fixpoint hex_digits (fuel : nat) (n : N) : str :=
  match fuel with
  | O => []
  | S f => (if n <? 16 then [] else hex_digits f (n / 16)) ++ [hexdigit (n mod 16)]
  end.

(** ['{0:04x}'.format(n)]: lowercase, padded with zeros to width 4. *)
Definition format_04x (n : N) : str :=
  let d := hex_digits (S (N.to_nat (N.log2 n))) n in
  repeat 48 (4 - List.length d) ++ d.

(** [ESCAPE_ASCII] matches a backslash, a double quote and whatever is
    outside [' '..'~']; [replace] looks the match up in [ESCAPE_DCT]
    (the two-character escapes, then [\u00XX] for the other control
    characters) and otherwise writes [\uXXXX], or a surrogate pair
    above the basic plane. *)
Definition escape_char (c : N) : str :=
  if c =? 0x5C then [0x5C; 0x5C]
  else if c =? 0x22 then [0x5C; 0x22]
  else if c =? 0x08 then [0x5C; 0x62]
  else if c =? 0x0C then [0x5C; 0x66]
  else if c =? 0x0A then [0x5C; 0x6E]
  else if c =? 0x0D then [0x5C; 0x72]
  else if c =? 0x09 then [0x5C; 0x74]
  else if (0x20 <=? c) && (c <=? 0x7E) then [c]
  else if c <? 0x10000 then [0x5C; 0x75] ++ format_04x c
  else
    let n := c - 0x10000 in
    let s1 := N.lor 0xD800 (N.land (N.shiftr n 10) 0x3FF) in
    let s2 := N.lor 0xDC00 (N.land n 0x3FF) in
    [0x5C; 0x75] ++ format_04x s1 ++ [0x5C; 0x75] ++ format_04x s2.

(** [encode_basestring_ascii] *)
Definition encode_basestring_ascii (s : str) : str :=
  [0x22] ++ flat_map escape_char s ++ [0x22].

Fixpoint uint_chars (u : Decimal.uint) : str :=
  match u with
  | Decimal.Nil => []
  | Decimal.D0 r => 48 :: uint_chars r
  | Decimal.D1 r => 49 :: uint_chars r
  | Decimal.D2 r => 50 :: uint_chars r
  | Decimal.D3 r => 51 :: uint_chars r
  | Decimal.D4 r => 52 :: uint_chars r
  | Decimal.D5 r => 53 :: uint_chars r
  | Decimal.D6 r => 54 :: uint_chars r
  | Decimal.D7 r => 55 :: uint_chars r
  | Decimal.D8 r => 56 :: uint_chars r
  | Decimal.D9 r => 57 :: uint_chars r
  end.

(** [int.__repr__] *)
Definition repr_int (z : Z) : str :=
  match Z.to_int z with
  | Decimal.Pos u => uint_chars u
  | Decimal.Neg u => 45 :: uint_chars u
  end.

Definition dumps_value (v : value) : str :=
  match v with
  | VNone => lit "null"
  | VBool true => lit "true"
  | VBool false => lit "false"
  | VInt n => repr_int n
  | VStr s => encode_basestring_ascii s
  end.

Definition dumps_item (kv : str * value) : str :=
  encode_basestring_ascii (fst kv) ++ lit ": " ++ dumps_value (snd kv).

(** [sep.join(l)] *)
Fixpoint join (sep : str) (l : list str) : str :=
  match l with
  | [] => []
  | [x] => x
  | x :: r => x ++ sep ++ join sep r
  end.

Definition dumps (d : dict) : str :=
  lit "{" ++ join (lit ", ") (map dumps_item d) ++ lit "}".

(** *** The JSON grammar (RFC 8259, in the form of json.org) *)

Definition is_ws (c : N) : bool :=
  (c =? 0x20) || (c =? 0x09) || (c =? 0x0A) || (c =? 0x0D).

Definition is_digit (c : N) : bool := (48 <=? c) && (c <=? 57).

Definition is_hex (c : N) : bool :=
  is_digit c || ((97 <=? c) && (c <=? 102)) || ((65 <=? c) && (c <=? 70)).

(** [unescaped = %x20-21 / %x23-5B / %x5D-10FFFF] *)
Definition unescaped (c : N) : bool :=
  (0x20 <=? c) && (c <=? 0x10FFFF) && negb (c =? 0x22) && negb (c =? 0x5C).

Definition ws (w : str) : Prop := forallb is_ws w = true.

Inductive chars : str -> Prop :=
| chars_nil : chars []
| chars_unescaped c r :
    unescaped c = true -> chars r -> chars (c :: r)
| chars_escape c r :
    In c [0x22; 0x5C; 0x2F; 0x62; 0x66; 0x6E; 0x72; 0x74] ->
    chars r -> chars (0x5C :: c :: r)
| chars_u h r :
    List.length h = 4%nat -> forallb is_hex h = true ->
    chars r -> chars ([0x5C; 0x75] ++ h ++ r).

Inductive jstring : str -> Prop :=
| jstring_intro b : chars b -> jstring ([0x22] ++ b ++ [0x22]).

Inductive int_part : str -> Prop :=
| int_zero : int_part [48]
| int_nonzero d ds :
    49 <= d <= 57 -> forallb is_digit ds = true -> int_part (d :: ds).

Inductive frac_part : str -> Prop :=
| frac_none : frac_part []
| frac_some d ds : forallb is_digit (d :: ds) = true -> frac_part (0x2E :: d :: ds).

Inductive exp_part : str -> Prop :=
| exp_none : exp_part []
| exp_some e sign d ds :
    e = 0x65 \/ e = 0x45 ->
    sign = [] \/ sign = [0x2B] \/ sign = [0x2D] ->
    forallb is_digit (d :: ds) = true -> exp_part ([e] ++ sign ++ d :: ds).

Inductive number : str -> Prop :=
| number_intro sign i f e :
    sign = [] \/ sign = [0x2D] ->
    int_part i -> frac_part f -> exp_part e -> number (sign ++ i ++ f ++ e).

Inductive jvalue : str -> Prop :=
| jvalue_null : jvalue (lit "null")
| jvalue_true : jvalue (lit "true")
| jvalue_false : jvalue (lit "false")
| jvalue_string s : jstring s -> jvalue s
| jvalue_number s : number s -> jvalue s
| jvalue_object w : ws w -> jvalue ([0x7B] ++ w ++ [0x7D])
| jvalue_members m : members m -> jvalue ([0x7B] ++ m ++ [0x7D])
| jvalue_array w : ws w -> jvalue ([0x5B] ++ w ++ [0x5D])
| jvalue_elements l : elements l -> jvalue ([0x5B] ++ l ++ [0x5D])
with members : str -> Prop :=
| members_one m : member m -> members m
| members_more m r : member m -> members r -> members (m ++ [0x2C] ++ r)
with member : str -> Prop :=
| member_intro w1 k w2 e :
    ws w1 -> jstring k -> ws w2 -> element e ->
    member (w1 ++ k ++ w2 ++ [0x3A] ++ e)
with elements : str -> Prop :=
| elements_one e : element e -> elements e
| elements_more e r : element e -> elements r -> elements (e ++ [0x2C] ++ r)
with element : str -> Prop :=
| element_intro w1 v w2 : ws w1 -> jvalue v -> ws w2 -> element (w1 ++ v ++ w2).

(** A JSON text is one value, possibly surrounded by white space; a
    record is a text whose value is an object. *)
Definition json_text (s : str) : Prop := element s.

Inductive json_object : str -> Prop :=
| json_object_empty w : ws w -> json_object ([0x7B] ++ w ++ [0x7D])
| json_object_members m : members m -> json_object ([0x7B] ++ m ++ [0x7D]).

(** A text between double quotes, for writing expected outputs. *)
Definition quoted (s : str) : str := [0x22] ++ s ++ [0x22].

(** What a line of output may hold: the characters [' '..'~']. *)
Definition printable (c : N) : bool := (0x20 <=? c) && (c <=? 0x7E).

End Json.

(* ================================================================= *)
(** ** The interpreter: exceptions, standard output and the extractor *)

(** [pdfminer.layout.LAParams], with the keyword arguments the script
    passes; the parameters it leaves out keep the library's defaults. *)
Record LAParams := {
  line_margin : float;
  word_margin : float;
  char_margin : float;
  boxes_flow : float;
  all_texts : bool
}.

(** What a call of [pdfminer.high_level.extract_text] does: it returns
    the text of the document, or raises an error.  The errors of the
    library and of the file system ([PDFSyntaxError], [FileNotFoundError],
    [UnicodeDecodeError], ...) all derive from [Exception]; [cls] is the
    name of the class and [message] is [str(e)].  An interrupt of the
    interpreter during the call ([KeyboardInterrupt]) is not an answer of
    the extractor and is not modelled. *)
Inductive outcome :=
| Returns (text : Py.str)
| Raises (cls : string) (message : Py.str).

(** The extraction capability together with the file system it reads: the
    outcome for a path and a configuration. *)
Definition extractor := Py.str -> LAParams -> outcome.

(** The observable state: the calls made to the extractor, oldest first,
    and what has been written to standard output. *)
Record world := {
  calls : list (Py.str * LAParams);
  stdout : Py.str
}.

(** A raised exception.  [SystemExit] derives from [BaseException] only,
    so a handler for [Exception] lets it through. *)
Inductive exn :=
| Exception (cls : string) (message : Py.str)
| SystemExit (code : Z).

Inductive res (A : Type) :=
| Val (a : A)
| Raise (e : exn).

Arguments Val {A} a.
Arguments Raise {A} e.

Definition M (A : Type) := world -> res A * world.

Definition ret {A} (a : A) : M A := fun w => (Val a, w).

Definition bind {A B} (m : M A) (k : A -> M B) : M B :=
  fun w =>
    match m w with
    | (Val a, w') => k a w'
    | (Raise e, w') => (Raise e, w')
    end.

Notation "x <- m ;; k" := (bind m (fun x => k))
  (at level 61, m at next level, right associativity).
Notation "m ;; k" := (bind m (fun _ => k))
  (at level 61, right associativity).

Definition raise {A} (e : exn) : M A := fun w => (Raise e, w).

(** [try: body  except Exception as e: handler(e)] *)
Definition try_except_Exception {A}
    (body : M A) (handler : string * Py.str -> M A) : M A :=
  fun w =>
    match body w with
    | (Raise (Exception cls message), w') => handler (cls, message) w'
    | r => r
    end.

(** [str(e)] *)
Definition str_of_exception (e : string * Py.str) : Py.str := snd e.

(** [print(s)]: the string and a line feed. *)
Definition print (s : Py.str) : M unit :=
  fun w => (Val tt, {| calls := calls w; stdout := stdout w ++ s ++ [10%N] |}).

(** [sys.exit(code)] *)
Definition sys_exit {A} (code : Z) : M A := raise (SystemExit code).

(** [l[i]] on a list *)
Definition list_item (l : list Py.str) (i : nat) : M Py.str :=
  match nth_error l i with
  | Some x => ret x
  | None => raise (Exception "IndexError" (Py.lit "list index out of range"))
  end.

(** [d[k]] on a dict; the message of a [KeyError] is the [repr] of the
    key (written here for keys without quotes or escapes). *)
Definition dict_item (d : Py.dict) (k : Py.str) : M Py.value :=
  match Py.get d k with
  | Some v => ret v
  | None => raise (Exception "KeyError" (Py.lit "'" ++ k ++ Py.lit "'"))
  end.

(** The status the process ends with: what [sys.exit] was given, 1 after
    an uncaught exception (the interpreter prints the traceback), 0 when
    the script runs to its end. *)
Definition exit_status {A} (r : res A) : Z :=
  match r with
  | Val _ => 0
  | Raise (SystemExit code) => code
  | Raise (Exception _ _) => 1
  end.

(* ================================================================= *)
(** ** The script *)

Section Script.

Import Py.

(** [from pdfminer.high_level import extract_text] *)
Variable extract_text : extractor.

Definition call_extract_text (pdf_path : str) (laparams : LAParams) : M str :=
  fun w =>
    let w' := {| calls := calls w ++ [(pdf_path, laparams)]; stdout := stdout w |} in
    match extract_text pdf_path laparams with
    | Returns text => (Val text, w')
    | Raises cls message => (Raise (Exception cls message), w')
    end.

Definition extract_pdf_text (pdf_path : str) : M dict :=
  try_except_Exception
    (let laparams :=
       {| line_margin := 0.5;
          word_margin := 0.1;
          char_margin := 2.0;
          boxes_flow := 0.5;
          all_texts := false |} in
     text <- call_extract_text pdf_path laparams ;;
     if negb (truthy (VStr text)) || negb (truthy (VStr (strip text))) then
       ret [ (lit "success", VBool false);
             (lit "error", VStr (lit "No text content found in PDF"));
             (lit "text", VStr (lit "")) ]
     else
       let cleaned_text := strip text in
       ret [ (lit "success", VBool true);
             (lit "text", VStr cleaned_text);
             (lit "length", VInt (len cleaned_text));
             (lit "error", VNone) ])
    (fun e =>
       ret [ (lit "success", VBool false);
             (lit "error", VStr (lit "PDF extraction failed: " ++ str_of_exception e));
             (lit "text", VStr (lit "")) ]).

(** [argv] is [sys.argv]: the name of the script, then the arguments. *)
Definition main (argv : list str) : M unit :=
  (if negb (Z.of_nat (List.length argv) =? 2)%Z then
     let result :=
       [ (lit "success", VBool false);
         (lit "error", VStr (lit "Usage: python extract_pdf_text.py <pdf_file_path>"));
         (lit "text", VStr (lit "")) ] in
     print (Json.dumps result) ;;
     sys_exit 1
   else ret tt) ;;
  pdf_path <- list_item argv 1 ;;
  result <- extract_pdf_text pdf_path ;;
  print (Json.dumps result) ;;
  success <- dict_item result (lit "success") ;;
  sys_exit (if truthy success then 0 else 1)%Z.

(** A run of the script from a fresh process: nothing has been written
    and the extractor has not been called. *)
Definition fresh : world := {| calls := []; stdout := [] |}.

Definition run (argv : list str) : world * Z :=
  let (r, w) := main argv fresh in (w, exit_status r).

End Script.

(* ================================================================= *)
(** ** The vocabulary of the contract *)

(** The configuration the script builds on lines 20 to 26. *)
Definition fixed_laparams : LAParams :=
  {| line_margin := 0.5;
     word_margin := 0.1;
     char_margin := 2.0;
     boxes_flow := 0.5;
     all_texts := false |}.

(** The two records of the contract, as the dicts the script builds, keys
    in the order it writes them. *)
Definition success_record (t : Py.str) : Py.dict :=
  [ (Py.lit "success", Py.VBool true);
    (Py.lit "text", Py.VStr t);
    (Py.lit "length", Py.VInt (Py.len t));
    (Py.lit "error", Py.VNone) ].

Definition failure_record (message : Py.str) : Py.dict :=
  [ (Py.lit "success", Py.VBool false);
    (Py.lit "error", Py.VStr message);
    (Py.lit "text", Py.VStr []) ].

Definition usage_message : Py.str :=
  Py.lit "Usage: python extract_pdf_text.py <pdf_file_path>".

Definition no_text_message : Py.str := Py.lit "No text content found in PDF".

(** The shape of an ExtractionResult: [success] is a boolean; on success
    [error] is null or absent, [text] is a string and [length] is its
    number of characters; on failure [error] is a string, [text] is empty
    and there is no [length]. *)
Definition is_extraction_result (d : Py.dict) : bool :=
  match Py.get d (Py.lit "success") with
  | Some (Py.VBool true) =>
      match Py.get d (Py.lit "error"), Py.get d (Py.lit "text"),
            Py.get d (Py.lit "length") with
      | (Some Py.VNone | None), Some (Py.VStr t), Some (Py.VInt n) =>
          (n =? Py.len t)%Z
      | _, _, _ => false
      end
  | Some (Py.VBool false) =>
      match Py.get d (Py.lit "error"), Py.get d (Py.lit "text"),
            Py.get d (Py.lit "length") with
      | Some (Py.VStr _), Some (Py.VStr []), None => true
      | _, _, _ => false
      end
  | _ => false
  end.

(** The same shape clause by clause: [success] is a boolean; [error] is a
    string exactly when [success] is false, and null or absent otherwise;
    [text] is a string, empty when [success] is false; [length] is present
    only when [success] is true, and then it is the number of characters
    of [text]. *)
Definition result_shape (d : Py.dict) : Prop :=
  exists b,
    Py.get d (Py.lit "success") = Some (Py.VBool b)
    /\ ((exists m, Py.get d (Py.lit "error") = Some (Py.VStr m)) <-> b = false)
    /\ (b = true ->
        Py.get d (Py.lit "error") = Some Py.VNone
        \/ Py.get d (Py.lit "error") = None)
    /\ (exists t, Py.get d (Py.lit "text") = Some (Py.VStr t))
    /\ (b = false -> Py.get d (Py.lit "text") = Some (Py.VStr []))
    /\ ((exists n, Py.get d (Py.lit "length") = Some n) -> b = true)
    /\ (b = true ->
        exists t,
          Py.get d (Py.lit "text") = Some (Py.VStr t)
          /\ Py.get d (Py.lit "length") = Some (Py.VInt (Py.len t))).

(** An extractor for the examples: it finds text in [a.pdf], nothing but
    blanks in [scan.pdf], and no file under any other path. *)
Definition sample_extractor : extractor :=
  fun path _ =>
    if Py.str_eqb path (Py.lit "a.pdf") then Returns (Py.lit " Hello ")
    else if Py.str_eqb path (Py.lit "scan.pdf") then Returns [32; 10]%N
    else Raises "FileNotFoundError" (Py.lit "No such file").

(** The world after one more call of the extractor, and after one more
    [print]. *)
Definition called (pdf_path : Py.str) (la : LAParams) (w : world) : world :=
  {| calls := calls w ++ [(pdf_path, la)]; stdout := stdout w |}.

Definition printed (line : Py.str) (w : world) : world :=
  {| calls := calls w; stdout := stdout w ++ line ++ [10%N] |}.

(* ================================================================= *)
(** ** Facts about the Python operations *)

(** Case analysis on the comparisons of [N] that occur in a goal, one at a
    time, closing the arithmetic leaves with [lia]. *)
Ltac cmp_cases :=
  repeat (cbn [andb orb negb];
    match goal with
    | |- context [N.leb ?a ?b] => destruct (N.leb_spec a b)
    | |- context [N.ltb ?a ?b] => destruct (N.ltb_spec a b)
    | |- context [N.eqb ?a ?b] => destruct (N.eqb_spec a b)
    end);
  cbn [andb orb negb]; try reflexivity; try discriminate; try lia.

Module PyFacts.
Import Py.
Local Open Scope N_scope.


Lemma lstrip_blank s : blank s = true -> lstrip s = [].
Proof.
  induction s as [|c r IH]; simpl; [reflexivity|].
  intros H. apply andb_true_iff in H as [Hc Hr].
  rewrite Hc. now apply IH.
Qed.

Lemma lstrip_nil s : lstrip s = [] -> blank s = true.
Proof.
  induction s as [|c r IH]; simpl; [reflexivity|].
  destruct (isspace c) eqn:Hc; [intros H; now rewrite IH | discriminate].
Qed.

Lemma lstrip_head s : starts_with_space (lstrip s) = false.
Proof.
  induction s as [|c r IH]; simpl; [reflexivity|].
  destruct (isspace c) eqn:Hc; [exact IH | simpl; exact Hc].
Qed.

Lemma lstrip_fixed s : starts_with_space s = false -> lstrip s = s.
Proof.
  destruct s as [|c r]; simpl; [reflexivity|]. now intros ->.
Qed.

(** [lstrip] removes a whitespace-only prefix and nothing else. *)
Lemma lstrip_split s : exists p, s = p ++ lstrip s /\ blank p = true.
Proof.
  induction s as [|c r [p [E B]]]; simpl.
  - now exists [].
  - destruct (isspace c) eqn:Hc.
    + exists (c :: p). simpl. rewrite Hc, B. split; [now rewrite <- E | reflexivity].
    + now exists [].
Qed.

Lemma blank_app a b : blank (a ++ b) = blank a && blank b.
Proof. apply forallb_app. Qed.

Lemma blank_rev s : blank (rev s) = blank s.
Proof.
  induction s as [|c r IH]; simpl; [reflexivity|].
  rewrite blank_app, IH. simpl. rewrite andb_true_r. apply andb_comm.
Qed.

Lemma rstrip_split s : exists q, s = rstrip s ++ q /\ blank q = true.
Proof.
  unfold rstrip. destruct (lstrip_split (rev s)) as [p [E B]].
  exists (rev p). split; [|now rewrite blank_rev].
  rewrite <- rev_app_distr, <- E. symmetry. apply rev_involutive.
Qed.

Lemma rstrip_tail s : ends_with_space (rstrip s) = false.
Proof.
  unfold ends_with_space, rstrip. rewrite rev_involutive. apply lstrip_head.
Qed.

(** Stripping on the right leaves the first character alone, as long as
    something is left. *)
Lemma rstrip_head s :
  starts_with_space s = false -> starts_with_space (rstrip s) = false.
Proof.
  destruct (rstrip_split s) as [q [E _]].
  destruct (rstrip s) as [|c r] eqn:R; [reflexivity|].
  rewrite E. simpl. trivial.
Qed.

Lemma rstrip_fixed s : ends_with_space s = false -> rstrip s = s.
Proof.
  unfold ends_with_space, rstrip. intros H.
  rewrite (lstrip_fixed _ H). apply rev_involutive.
Qed.

Lemma strip_head s : starts_with_space (strip s) = false.
Proof. apply rstrip_head, lstrip_head. Qed.

Lemma strip_tail s : ends_with_space (strip s) = false.
Proof. apply rstrip_tail. Qed.

(** The specification of [strip]: the string is the stripped text
    between a whitespace-only prefix and a whitespace-only suffix. *)
Lemma strip_split s :
  exists p q, s = p ++ strip s ++ q /\ blank p = true /\ blank q = true.
Proof.
  destruct (lstrip_split s) as [p [Ep Bp]].
  destruct (rstrip_split (lstrip s)) as [q [Eq Bq]].
  exists p, q. unfold strip. now rewrite <- Eq.
Qed.

Lemma lstrip_app_blank p x : blank p = true -> lstrip (p ++ x) = lstrip x.
Proof.
  induction p as [|c r IH]; simpl; [reflexivity|].
  intros H. apply andb_true_iff in H as [Hc Hr]. rewrite Hc. now apply IH.
Qed.

Lemma rstrip_app_blank x q : blank q = true -> rstrip (x ++ q) = rstrip x.
Proof.
  intros H. unfold rstrip. rewrite rev_app_distr, lstrip_app_blank; [reflexivity|].
  now rewrite blank_rev.
Qed.

(** The decomposition determines the stripped text: [strip] is the only
    way to cut whitespace-only ends off and leave a text that neither
    starts nor ends with whitespace. *)
Lemma strip_unique p t q :
  blank p = true -> blank q = true ->
  starts_with_space t = false -> ends_with_space t = false ->
  strip (p ++ t ++ q) = t.
Proof.
  intros Bp Bq Hs He. unfold strip. rewrite (lstrip_app_blank _ _ Bp).
  destruct t as [|c r].
  - simpl. now rewrite (lstrip_blank _ Bq).
  - simpl in Hs. simpl. rewrite Hs.
    change (c :: r ++ q) with ((c :: r) ++ q).
    rewrite (rstrip_app_blank _ _ Bq). now apply rstrip_fixed.
Qed.

Lemma strip_blank s : blank s = true -> strip s = [].
Proof. intros H. unfold strip. now rewrite (lstrip_blank _ H). Qed.

Lemma strip_nil s : strip s = [] -> blank s = true.
Proof.
  intros H. destruct (strip_split s) as [p [q [E [Bp Bq]]]].
  rewrite E, H, !blank_app, Bp, Bq. reflexivity.
Qed.

Lemma strip_idempotent s : strip (strip s) = strip s.
Proof.
  unfold strip at 1.
  rewrite (lstrip_fixed _ (strip_head s)).
  apply rstrip_fixed, strip_tail.
Qed.

Lemma len_nil_iff s : (len s =? 0)%Z = true <-> s = [].
Proof.
  unfold len. destruct s; simpl; split; intros H; reflexivity || discriminate.
Qed.

Lemma truthy_str s : truthy (VStr s) = false <-> s = [].
Proof.
  simpl. rewrite negb_false_iff. apply len_nil_iff.
Qed.

End PyFacts.

(* ================================================================= *)
(** ** The encoder writes ASCII that follows the grammar *)

Module JsonFacts.
Import Py Json.
Local Open Scope N_scope.


(** The encoder on small inputs, as [json.dumps] answers in CPython. *)
Example format_04x_examples :
  format_04x 0xE9 = lit "00e9"
  /\ format_04x 0xD83D = lit "d83d"
  /\ format_04x 0 = lit "0000".
Proof. repeat split. Qed.

Example escape_char_examples :
  escape_char 0x41 = lit "A"
  /\ escape_char 0x0A = lit "\n"
  /\ escape_char 0x01 = lit "\u0001"
  /\ escape_char 0x7F = lit "\u007f"
  /\ escape_char 0xE9 = lit "\u00e9"
  /\ escape_char 0x1F600 = lit "\ud83d\ude00".
Proof. repeat split. Qed.

Example repr_int_examples :
  repr_int 0 = lit "0" /\ repr_int 9 = lit "9" /\ repr_int 120 = lit "120"
  /\ repr_int (-7) = lit "-7".
Proof. repeat split. Qed.

Example dumps_success_example :
  dumps [ (lit "success", VBool true); (lit "text", VStr (lit "Hi"));
          (lit "length", VInt 2); (lit "error", VNone) ]
  = lit "{" ++ quoted (lit "success") ++ lit ": true, "
    ++ quoted (lit "text") ++ lit ": " ++ quoted (lit "Hi") ++ lit ", "
    ++ quoted (lit "length") ++ lit ": 2, "
    ++ quoted (lit "error") ++ lit ": null}".
Proof. reflexivity. Qed.

Lemma hexdigit_hex d : d < 16 -> is_hex (hexdigit d) = true.
Proof.
  intros H. unfold is_hex, is_digit, hexdigit.
  destruct (N.ltb_spec d 10); cmp_cases.
Qed.

Lemma hex_digits_hex fuel : forall n, forallb is_hex (hex_digits fuel n) = true.
Proof.
  induction fuel as [|f IH]; intros n; simpl; [reflexivity|].
  rewrite forallb_app. simpl.
  rewrite hexdigit_hex by (apply N.mod_lt; discriminate).
  destruct (n <? 16); [reflexivity | now rewrite IH].
Qed.

(** A number below [16^(k+1)] has at most [k+1] digits, whatever the fuel. *)
Lemma hex_digits_length k :
  forall fuel n, n < 16 ^ N.of_nat (S k) ->
                 (List.length (hex_digits fuel n) <= S k)%nat.
Proof.
  induction k as [|k IH]; intros [|f] n H; simpl hex_digits; simpl List.length;
    try lia; rewrite length_app; simpl List.length.
  - change (16 ^ N.of_nat 1) with 16 in H.
    apply N.ltb_lt in H. rewrite H. simpl. lia.
  - destruct (N.ltb_spec n 16) as [_|Hn]; [simpl; lia|].
    assert (n / 16 < 16 ^ N.of_nat (S k)) as Hq.
    { apply N.Div0.div_lt_upper_bound.
      replace (N.of_nat (S (S k))) with (N.succ (N.of_nat (S k))) in H by lia.
      now rewrite N.pow_succ_r' in H. }
    specialize (IH f _ Hq). lia.
Qed.

Lemma format_04x_length n : n < 0x10000 -> List.length (format_04x n) = 4%nat.
Proof.
  intros H. unfold format_04x.
  rewrite length_app, repeat_length.
  pose proof (@hex_digits_length 3 (S (N.to_nat (N.log2 n))) n H). lia.
Qed.

Lemma format_04x_hex n : forallb is_hex (format_04x n) = true.
Proof.
  unfold format_04x. rewrite forallb_app, hex_digits_hex, andb_true_r.
  induction (4 - _)%nat; simpl; auto.
Qed.

Lemma lor_lt_pow2 a b n : a < 2 ^ n -> b < 2 ^ n -> N.lor a b < 2 ^ n.
Proof.
  intros Ha Hb.
  destruct (N.eq_dec (N.lor a b) 0) as [E|E]; [rewrite E; lia|].
  apply N.log2_lt_pow2; [lia|]. rewrite N.log2_lor.
  assert (forall x, x < 2 ^ n -> x <> 0 -> N.log2 x < n) as L
      by (intros x Hx Hn; apply N.log2_lt_pow2; lia).
  assert (0 < n) as Hpos.
  { destruct (N.eq_dec n 0) as [->|]; [|lia].
    change (2 ^ 0) with 1 in Ha, Hb.
    assert (a = 0) as -> by lia. assert (b = 0) as -> by lia.
    now contradiction E. }
  apply N.max_lub_lt.
  - destruct (N.eq_dec a 0) as [->|]; [exact Hpos | now apply L].
  - destruct (N.eq_dec b 0) as [->|]; [exact Hpos | now apply L].
Qed.

(** Both halves of a surrogate pair fit four hexadecimal digits. *)
Lemma surrogate_bound base x :
  base < 0x10000 -> N.lor base (N.land x 0x3FF) < 0x10000.
Proof.
  intros Hb. change 0x10000 with (2 ^ 16). apply lor_lt_pow2; [exact Hb|].
  change 0x3FF with (N.ones 10). rewrite N.land_ones.
  pose proof (N.mod_lt x (2 ^ 10)). change (2 ^ 10) with 1024 in *.
  change (2 ^ 16) with 65536. lia.
Qed.

Lemma chars_u4 n r : n < 0x10000 -> chars r -> chars ([0x5C; 0x75] ++ format_04x n ++ r).
Proof.
  intros H Hr. apply chars_u; [now apply format_04x_length | apply format_04x_hex | exact Hr].
Qed.

Lemma escape_char_chars c r : chars r -> chars (escape_char c ++ r).
Proof.
  intros Hr. unfold escape_char.
  repeat match goal with
         | |- context [if N.eqb ?a ?b then _ else _] =>
             destruct (N.eqb_spec a b);
             [simpl; apply chars_escape; [simpl; tauto | exact Hr]|]
         end.
  destruct ((0x20 <=? c) && (c <=? 0x7E)) eqn:P.
  - simpl. apply chars_unescaped; [|exact Hr].
    apply andb_true_iff in P as [P1 P2].
    apply N.leb_le in P1. apply N.leb_le in P2.
    unfold unescaped. cmp_cases.
  - destruct (N.ltb_spec c 0x10000) as [L|L].
    + rewrite <- app_assoc. now apply chars_u4.
    + cbv zeta. rewrite <- !app_assoc.
      apply chars_u4; [now apply surrogate_bound|].
      apply chars_u4; [now apply surrogate_bound | exact Hr].
Qed.

Lemma escape_chars s : chars (flat_map escape_char s).
Proof.
  induction s as [|c r IH]; simpl; [constructor | now apply escape_char_chars].
Qed.

Lemma encode_jstring s : jstring (encode_basestring_ascii s).
Proof. apply jstring_intro, escape_chars. Qed.

Lemma hex_printable c : is_hex c = true -> printable c = true.
Proof. unfold is_hex, is_digit, printable. cmp_cases. Qed.

Lemma digit_printable c : is_digit c = true -> printable c = true.
Proof. unfold is_digit, printable. cmp_cases. Qed.

Lemma forallb_impl_bool (f g : N -> bool) l :
  (forall c, f c = true -> g c = true) ->
  forallb f l = true -> forallb g l = true.
Proof.
  intros I. induction l as [|c r IH]; simpl; [reflexivity|].
  intros H. apply andb_true_iff in H as [H1 H2].
  now rewrite (I _ H1), IH.
Qed.

Lemma format_04x_printable n : forallb printable (format_04x n) = true.
Proof. apply (forallb_impl_bool is_hex printable _ hex_printable), format_04x_hex. Qed.

Lemma escape_char_printable c : forallb printable (escape_char c) = true.
Proof.
  unfold escape_char.
  repeat match goal with
         | |- context [if N.eqb ?a ?b then _ else _] =>
             destruct (N.eqb_spec a b); [reflexivity|]
         end.
  destruct ((0x20 <=? c) && (c <=? 0x7E)) eqn:P.
  - simpl. unfold printable. now rewrite P.
  - destruct (c <? 0x10000); cbv zeta;
      rewrite ?forallb_app, ?format_04x_printable; reflexivity.
Qed.

Lemma encode_printable s : forallb printable (encode_basestring_ascii s) = true.
Proof.
  unfold encode_basestring_ascii. rewrite !forallb_app.
  replace (forallb printable (flat_map escape_char s)) with true; [reflexivity|].
  symmetry. induction s as [|c r IH]; simpl; [reflexivity|].
  now rewrite forallb_app, escape_char_printable, IH.
Qed.

Lemma uint_chars_digits u : forallb is_digit (uint_chars u) = true.
Proof. induction u; simpl; auto. Qed.

Lemma nzhead_int_part u :
  Decimal.nzhead u <> Decimal.Nil -> int_part (uint_chars (Decimal.nzhead u)).
Proof.
  induction u; simpl; intros H;
    try (apply int_nonzero; [lia | apply uint_chars_digits]).
  - now contradiction H.
  - now apply IHu.
Qed.

(** [Pos.to_uint] writes no leading zero. *)
Lemma pos_int_part p : int_part (uint_chars (Pos.to_uint p)).
Proof.
  pose proof (DecimalPos.Unsigned.to_of (Pos.to_uint p)) as E.
  rewrite DecimalPos.Unsigned.of_to in E. simpl in E.
  assert (Decimal.nzhead (Pos.to_uint p) <> Decimal.Nil) as NZ.
  { intros Z. unfold Decimal.unorm in E. rewrite Z in E.
    now apply (DecimalPos.Unsigned.to_uint_nonzero p). }
  rewrite (DecimalFacts.unorm_nzhead _ NZ) in E. rewrite E.
  now apply nzhead_int_part.
Qed.

Lemma repr_int_number z : number (repr_int z).
Proof.
  unfold repr_int. destruct z as [|p|p]; simpl.
  - apply (number_intro [] [48] [] []);
      [now left | apply int_zero | constructor | constructor].
  - rewrite <- (List.app_nil_r (uint_chars _)).
    apply (number_intro [] _ [] []);
      [now left | apply pos_int_part | constructor | constructor].
  - rewrite <- (List.app_nil_r (uint_chars _)).
    apply (number_intro [0x2D] _ [] []);
      [now right | apply pos_int_part | constructor | constructor].
Qed.

Lemma repr_int_printable z : forallb printable (repr_int z) = true.
Proof.
  unfold repr_int.
  destruct (Z.to_int z); simpl;
    apply (forallb_impl_bool is_digit printable _ digit_printable), uint_chars_digits.
Qed.

Lemma dumps_value_jvalue v : jvalue (dumps_value v).
Proof.
  destruct v as [|[|]|n|s]; simpl.
  - apply jvalue_null.
  - apply jvalue_true.
  - apply jvalue_false.
  - apply jvalue_number, repr_int_number.
  - apply jvalue_string, encode_jstring.
Qed.

Lemma dumps_value_printable v : forallb printable (dumps_value v) = true.
Proof.
  destruct v as [|[|]|n|s]; simpl; try reflexivity.
  - apply repr_int_printable.
  - apply encode_printable.
Qed.

(** An item is a member of the grammar, with any white space before it:
    the key, the colon, a space and the value. *)
Lemma dumps_item_member w kv : ws w -> member (w ++ dumps_item kv).
Proof.
  intros Hw. unfold dumps_item.
  change (lit ": ") with ([0x3A] ++ [0x20]).
  replace (w ++ encode_basestring_ascii (fst kv) ++ ([0x3A] ++ [0x20]) ++ dumps_value (snd kv))
    with (w ++ encode_basestring_ascii (fst kv) ++ [] ++ [0x3A] ++ ([0x20] ++ dumps_value (snd kv) ++ []))
    by (now rewrite List.app_nil_r).
  apply member_intro; [exact Hw | apply encode_jstring | reflexivity|].
  apply element_intro; [reflexivity | apply dumps_value_jvalue | reflexivity].
Qed.

Lemma join_members w kv d :
  ws w -> members (w ++ join (lit ", ") (map dumps_item (kv :: d))).
Proof.
  revert w kv. induction d as [|kv' d IH]; intros w kv Hw.
  - simpl. apply members_one. now apply dumps_item_member.
  - change (join (lit ", ") (map dumps_item (kv :: kv' :: d)))
      with (dumps_item kv ++ ([0x2C] ++ [0x20]) ++ join (lit ", ") (map dumps_item (kv' :: d))).
    rewrite <- app_assoc, app_assoc.
    apply members_more; [now apply dumps_item_member | now apply IH].
Qed.

Theorem dumps_json_object d : json_object (dumps d).
Proof.
  unfold dumps. change (lit "{") with [0x7B]. change (lit "}") with [0x7D].
  destruct d as [|kv d].
  - now apply (json_object_empty []).
  - apply json_object_members. now apply (join_members []).
Qed.

Lemma json_object_text s : json_object s -> json_text s.
Proof.
  intros H. unfold json_text. change s with ([] ++ s). rewrite <- (List.app_nil_r s) at 1.
  apply (element_intro [] s []); [reflexivity| |reflexivity].
  destruct H; [now apply jvalue_object | now apply jvalue_members].
Qed.

Lemma join_printable l :
  Forall (fun x => forallb printable x = true) l ->
  forallb printable (join (lit ", ") l) = true.
Proof.
  induction 1 as [|x r Hx Hr IH]; [reflexivity|].
  destruct r as [|y r]; [exact Hx|].
  change (join (lit ", ") (x :: y :: r)) with (x ++ lit ", " ++ join (lit ", ") (y :: r)).
  now rewrite !forallb_app, Hx, IH.
Qed.

Theorem dumps_printable d : forallb printable (dumps d) = true.
Proof.
  unfold dumps. rewrite !forallb_app. simpl forallb at 1 3.
  rewrite join_printable; [reflexivity|].
  apply Forall_map, Forall_forall. intros kv _. unfold dumps_item.
  now rewrite !forallb_app, encode_printable, dumps_value_printable.
Qed.

(** The grammar is not satisfied by everything: a raw line feed is no part
    of a string, and an object needs its closing brace. *)
Example chars_rejects_line_feed r : ~ chars (0x0A :: r).
Proof.
  intros H. inversion H; subst; easy.
Qed.

Example json_object_rejects_unclosed : ~ json_object (lit "{").
Proof.
  intros H. change (lit "{") with [0x7B] in H.
  inversion H as [w W E|m W E]; symmetry in E;
    now apply app_cons_not_nil in E.
Qed.

Lemma printable_no_newline s : forallb printable s = true -> ~ In 0x0A s.
Proof.
  intros H I. rewrite forallb_forall in H. now specialize (H _ I).
Qed.

End JsonFacts.

(* ================================================================= *)
(** ** What the two functions compute *)

Module ScriptFacts.
Import Py.

(** The test of line 31 is the test for a whitespace-only text. *)
Lemma no_text_test raw :
  negb (truthy (VStr raw)) || negb (truthy (VStr (strip raw))) = blank raw.
Proof.
  destruct (blank raw) eqn:B.
  - rewrite (PyFacts.strip_blank raw B). simpl. apply orb_true_r.
  - apply orb_false_iff. split; apply negb_false_iff;
      destruct (truthy (VStr _)) eqn:T; trivial;
      apply PyFacts.truthy_str in T.
    + now rewrite T in B.
    + apply PyFacts.strip_nil in T. congruence.
Qed.

Section OneExtractor.

Variable extract_text : extractor.
Variables (pdf_path : str) (w : world).

(** The three ways through [extract_pdf_text], by what the extractor does. *)
Lemma extract_returns_text raw :
  extract_text pdf_path fixed_laparams = Returns raw ->
  blank raw = false ->
  extract_pdf_text extract_text pdf_path w
  = (Val (success_record (strip raw)), called pdf_path fixed_laparams w).
Proof.
  intros E B.
  unfold extract_pdf_text, try_except_Exception, bind, call_extract_text.
  fold fixed_laparams. rewrite E, no_text_test, B. reflexivity.
Qed.

Lemma extract_returns_blank raw :
  extract_text pdf_path fixed_laparams = Returns raw ->
  blank raw = true ->
  extract_pdf_text extract_text pdf_path w
  = (Val (failure_record no_text_message), called pdf_path fixed_laparams w).
Proof.
  intros E B.
  unfold extract_pdf_text, try_except_Exception, bind, call_extract_text.
  fold fixed_laparams. rewrite E, no_text_test, B. reflexivity.
Qed.

Lemma extract_raises cls message :
  extract_text pdf_path fixed_laparams = Raises cls message ->
  extract_pdf_text extract_text pdf_path w
  = (Val (failure_record (lit "PDF extraction failed: " ++ message)),
     called pdf_path fixed_laparams w).
Proof.
  intros E.
  unfold extract_pdf_text, try_except_Exception, bind, call_extract_text.
  fold fixed_laparams. rewrite E. reflexivity.
Qed.

(** Whatever the extractor does, [extract_pdf_text] returns a dict, after
    exactly one call of the extractor with the fixed configuration. *)
Lemma extract_returns_dict :
  exists d,
    extract_pdf_text extract_text pdf_path w
    = (Val d, called pdf_path fixed_laparams w)
    /\ is_extraction_result d = true.
Proof.
  destruct (extract_text pdf_path fixed_laparams) as [raw|cls message] eqn:E.
  - destruct (blank raw) eqn:B.
    + eexists. split; [exact (extract_returns_blank raw E B) | reflexivity].
    + eexists. split; [exact (extract_returns_text raw E B)|].
      unfold is_extraction_result, success_record. simpl. apply Z.eqb_refl.
  - eexists. split; [exact (extract_raises cls message E) | reflexivity].
Qed.

(** The two ways through [main], by the number of arguments. *)
Lemma main_wrong_arity argv :
  List.length argv <> 2%nat ->
  main extract_text argv w
  = (Raise (SystemExit 1), printed (Json.dumps (failure_record usage_message)) w).
Proof.
  intros H. unfold main, bind.
  destruct (Z.eqb_spec (Z.of_nat (List.length argv)) 2) as [E|E]; [lia|].
  reflexivity.
Qed.

Lemma main_one_path script d w1 :
  extract_pdf_text extract_text pdf_path w = (Val d, w1) ->
  is_extraction_result d = true ->
  exists b,
    get d (lit "success") = Some (VBool b)
    /\ main extract_text [script; pdf_path] w
       = (Raise (SystemExit (if b then 0 else 1)), printed (Json.dumps d) w1).
Proof.
  intros E R. unfold is_extraction_result in R.
  destruct (get d (lit "success")) as [[|b| |]|] eqn:S; try discriminate.
  exists b. split; [reflexivity|].
  unfold main, bind, list_item, dict_item, print, ret.
  cbn [nth_error List.length Z.of_nat Z.eqb negb Pos.of_succ_nat Pos.succ Pos.eqb].
  rewrite E, S. reflexivity.
Qed.

End OneExtractor.

(** Every run of [main] prints one record and exits: the usage record
    with status 1, or the record of [extract_pdf_text] with the status
    its [success] field decides. *)
Lemma main_cases (extract_text : extractor) (argv : list str) (w : world) :
  exists d,
    is_extraction_result d = true
    /\ ((List.length argv <> 2%nat
         /\ d = failure_record usage_message
         /\ main extract_text argv w
            = (Raise (SystemExit 1), printed (Json.dumps d) w))
        \/ (exists script path b,
              argv = [script; path]
              /\ extract_pdf_text extract_text path w
                 = (Val d, called path fixed_laparams w)
              /\ get d (lit "success") = Some (VBool b)
              /\ main extract_text argv w
                 = (Raise (SystemExit (if b then 0 else 1)),
                    printed (Json.dumps d) (called path fixed_laparams w)))).
Proof.
  destruct (Nat.eq_dec (List.length argv) 2) as [L|L].
  - destruct argv as [|script [|path [|x r]]]; try discriminate L.
    destruct (extract_returns_dict extract_text path w) as [d [E R]].
    destruct (main_one_path extract_text path w script d _ E R) as [b [S Mn]].
    exists d. split; [exact R|]. right. now exists script, path, b.
  - exists (failure_record usage_message). split; [reflexivity|]. left.
    repeat split; trivial. now apply main_wrong_arity.
Qed.

(** The executable test of the shape implies the shape. *)
Lemma is_extraction_result_shape d :
  is_extraction_result d = true -> result_shape d.
Proof.
  unfold is_extraction_result, result_shape. intros H.
  destruct (get d (lit "success")) as [[|[|]| |]|]; try discriminate H.
  - exists true.
    destruct (get d (lit "text")) as [[| | |t]|];
      try (destruct (get d (lit "error")) as [[| | |]|]; discriminate H).
    destruct (get d (lit "length")) as [[| |n|]|];
      try (destruct (get d (lit "error")) as [[| | |]|]; discriminate H).
    assert (n = len t) as ->.
    { destruct (get d (lit "error")) as [[| | |]|]; try discriminate H;
        now apply Z.eqb_eq. }
    repeat split; trivial; try discriminate; eauto.
    + intros [m E]. rewrite E in H. discriminate H.
    + destruct (get d (lit "error")) as [[| | |]|]; try discriminate H; auto.
  - exists false.
    destruct (get d (lit "error")) as [[| | |m]|]; try discriminate H.
    destruct (get d (lit "text")) as [[| | |[|c t]]|]; try discriminate H.
    destruct (get d (lit "length")) as [n|]; try discriminate H.
    repeat split; trivial; try discriminate; eauto.
    intros [n E]. discriminate E.
Qed.

End ScriptFacts.

(* ================================================================= *)
(** ** The contract of [extract_pdf_text] *)

Import Py.

(** C1. Whenever the extractor returns a text that is not empty and not
    made of whitespace only, [extract_pdf_text] returns exactly the record
    [{success: true, text: t, length: |t|, error: null}], where [t] is the
    extractor's text without its leading and trailing whitespace (the text
    is a whitespace-only prefix, then [t], then a whitespace-only suffix,
    and [t] neither starts nor ends with whitespace) and [|t|] is the
    number of characters of [t]. *)
Theorem C1_success_record :
  forall (extract_text : extractor) (pdf_path raw : str) (w : world),
    extract_text pdf_path fixed_laparams = Returns raw ->
    raw <> [] ->
    blank raw = false ->
    exists t before after,
      fst (extract_pdf_text extract_text pdf_path w)
      = Val [ (lit "success", VBool true);
              (lit "text", VStr t);
              (lit "length", VInt (Z.of_nat (List.length t)));
              (lit "error", VNone) ]
      /\ t = strip raw
      /\ raw = before ++ t ++ after
      /\ blank before = true /\ blank after = true
      /\ starts_with_space t = false /\ ends_with_space t = false.
Proof.
  intros ext path raw w E _ B.
  destruct (PyFacts.strip_split raw) as [p [q [S [Bp Bq]]]].
  exists (strip raw), p, q.
  rewrite (ScriptFacts.extract_returns_text ext path w raw E B).
  repeat split; trivial.
  - apply PyFacts.strip_head.
  - apply PyFacts.strip_tail.
Qed.

(** The extractor answers ["  Hello PDF "] for every path. *)
Lemma C1_success_record_witness :
  exists t before after,
    fst (extract_pdf_text (fun _ _ => Returns (lit "  Hello PDF ")) (lit "a.pdf") fresh)
    = Val [ (lit "success", VBool true);
            (lit "text", VStr t);
            (lit "length", VInt (Z.of_nat (List.length t)));
            (lit "error", VNone) ]
    /\ t = strip (lit "  Hello PDF ")
    /\ lit "  Hello PDF " = before ++ t ++ after
    /\ blank before = true /\ blank after = true
    /\ starts_with_space t = false /\ ends_with_space t = false.
Proof.
  apply (C1_success_record (fun _ _ => Returns (lit "  Hello PDF "))
           (lit "a.pdf") (lit "  Hello PDF ") fresh);
    [reflexivity | discriminate | reflexivity].
Defined.

(** C2. Whenever the call of the extractor raises an error,
    [extract_pdf_text] catches it and returns
    [{success: false, error: "PDF extraction failed: " + str(e), text: ""}];
    and whatever the extractor does, [extract_pdf_text] returns a
    well-formed result record instead of raising. *)
Theorem C2_extraction_error_caught :
  forall (extract_text : extractor) (pdf_path : str) (w : world),
    (forall cls message,
        extract_text pdf_path fixed_laparams = Raises cls message ->
        fst (extract_pdf_text extract_text pdf_path w)
        = Val [ (lit "success", VBool false);
                (lit "error", VStr (lit "PDF extraction failed: " ++ message));
                (lit "text", VStr []) ])
    /\ (exists d,
          fst (extract_pdf_text extract_text pdf_path w) = Val d
          /\ is_extraction_result d = true).
Proof.
  intros ext path w. split.
  - intros cls message E.
    now rewrite (ScriptFacts.extract_raises ext path w cls message E).
  - destruct (ScriptFacts.extract_returns_dict ext path w) as [d [E R]].
    exists d. now rewrite E.
Qed.

(** The file does not exist. *)
Lemma C2_extraction_error_caught_witness :
  fst (extract_pdf_text
         (fun _ _ => Raises "FileNotFoundError" (lit "[Errno 2] No such file or directory: 'a.pdf'"))
         (lit "a.pdf") fresh)
  = Val [ (lit "success", VBool false);
          (lit "error",
           VStr (lit "PDF extraction failed: "
                 ++ lit "[Errno 2] No such file or directory: 'a.pdf'"));
          (lit "text", VStr []) ].
Proof.
  apply (proj1 (C2_extraction_error_caught
                  (fun _ _ => Raises "FileNotFoundError"
                                (lit "[Errno 2] No such file or directory: 'a.pdf'"))
                  (lit "a.pdf") fresh)
           "FileNotFoundError"%string).
  reflexivity.
Defined.

(** C3. Whenever the extractor returns no text or only whitespace,
    [extract_pdf_text] returns the failure record with the fixed message
    ["No text content found in PDF"] and an empty text; the record says
    [success: false], so it is not the success record with an empty
    text. *)
Theorem C3_no_text_is_failure :
  forall (extract_text : extractor) (pdf_path raw : str) (w : world),
    extract_text pdf_path fixed_laparams = Returns raw ->
    raw = [] \/ blank raw = true ->
    exists d,
      fst (extract_pdf_text extract_text pdf_path w) = Val d
      /\ d = [ (lit "success", VBool false);
               (lit "error", VStr (lit "No text content found in PDF"));
               (lit "text", VStr []) ]
      /\ get d (lit "success") = Some (VBool false)
      /\ d <> success_record [].
Proof.
  intros ext path raw w E H.
  assert (blank raw = true) as B by (destruct H as [->|H]; [reflexivity | exact H]).
  eexists. rewrite (ScriptFacts.extract_returns_blank ext path w raw E B).
  repeat split. discriminate.
Qed.

(** A scanned page: the extractor finds spaces and line feeds only. *)
Lemma C3_no_text_is_failure_witness :
  exists d,
    fst (extract_pdf_text (fun _ _ => Returns [32; 10; 12; 10]%N) (lit "scan.pdf") fresh)
    = Val d
    /\ d = [ (lit "success", VBool false);
             (lit "error", VStr (lit "No text content found in PDF"));
             (lit "text", VStr []) ]
    /\ get d (lit "success") = Some (VBool false)
    /\ d <> success_record [].
Proof.
  apply (C3_no_text_is_failure (fun _ _ => Returns [32; 10; 12; 10]%N)
           (lit "scan.pdf") [32; 10; 12; 10]%N fresh);
    [reflexivity | right; reflexivity].
Defined.

(** C10. In every success record that [extract_pdf_text] returns, the text
    is not empty, so its length is at least 1, and it is already trimmed:
    stripping it again changes nothing, and it neither starts nor ends
    with whitespace. *)
Theorem C10_success_text_trimmed :
  forall (extract_text : extractor) (pdf_path : str) (w : world) (d : dict),
    fst (extract_pdf_text extract_text pdf_path w) = Val d ->
    get d (lit "success") = Some (VBool true) ->
    exists t,
      get d (lit "text") = Some (VStr t)
      /\ get d (lit "length") = Some (VInt (len t))
      /\ t <> []
      /\ (1 <= len t)%Z
      /\ strip t = t
      /\ starts_with_space t = false
      /\ ends_with_space t = false.
Proof.
  intros ext path w d E S.
  destruct (ext path fixed_laparams) as [raw|cls message] eqn:X.
  - destruct (blank raw) eqn:B.
    + rewrite (ScriptFacts.extract_returns_blank ext path w raw X B) in E.
      injection E as <-. discriminate S.
    + rewrite (ScriptFacts.extract_returns_text ext path w raw X B) in E.
      injection E as <-. exists (strip raw).
      assert (strip raw <> []) as NE.
      { intros N. apply PyFacts.strip_nil in N. congruence. }
      repeat split; trivial.
      * unfold len. destruct (strip raw); [now contradiction NE | simpl; lia].
      * apply PyFacts.strip_idempotent.
      * apply PyFacts.strip_head.
      * apply PyFacts.strip_tail.
  - rewrite (ScriptFacts.extract_raises ext path w cls message X) in E.
    injection E as <-. discriminate S.
Qed.

Lemma C10_success_text_trimmed_witness :
  exists t,
    get (success_record (lit "Hello PDF")) (lit "text") = Some (VStr t)
    /\ get (success_record (lit "Hello PDF")) (lit "length") = Some (VInt (len t))
    /\ t <> []
    /\ (1 <= len t)%Z
    /\ strip t = t
    /\ starts_with_space t = false
    /\ ends_with_space t = false.
Proof.
  apply (C10_success_text_trimmed (fun _ _ => Returns (lit "  Hello PDF "))
           (lit "a.pdf") fresh (success_record (lit "Hello PDF")));
    reflexivity.
Defined.

(* ================================================================= *)
(** ** The contract of [main] *)

(** C4. Whenever [sys.argv] does not hold exactly the script name and one
    path (no argument, or more than one), [main] prints the usage record
    [{success: false, error: "Usage: python extract_pdf_text.py
    <pdf_file_path>", text: ""}], whose message ends in
    ["<pdf_file_path>"], and exits with status 1; the extractor is not
    called, so no file is opened. *)
Theorem C4_usage_error :
  forall (extract_text : extractor) (argv : list str) (w : world),
    List.length argv <> 2%nat ->
    main extract_text argv w
    = (Raise (SystemExit 1),
       {| calls := calls w;
          stdout :=
            stdout w
            ++ Json.dumps
                 [ (lit "success", VBool false);
                   (lit "error",
                    VStr (lit "Usage: python extract_pdf_text.py "
                          ++ lit "<pdf_file_path>"));
                   (lit "text", VStr []) ]
            ++ [10%N] |})
    /\ exit_status (fst (main extract_text argv w)) = 1%Z
    /\ calls (snd (main extract_text argv w)) = calls w.
Proof.
  intros ext argv w H.
  rewrite (ScriptFacts.main_wrong_arity ext w argv H). repeat split.
Qed.

(** The script is started without an argument. *)
Lemma C4_usage_error_witness :
  main (fun _ _ => Returns (lit "never read")) [lit "extract_pdf_text.py"] fresh
  = (Raise (SystemExit 1),
     {| calls := calls fresh;
        stdout :=
          stdout fresh
          ++ Json.dumps
               [ (lit "success", VBool false);
                 (lit "error",
                  VStr (lit "Usage: python extract_pdf_text.py "
                        ++ lit "<pdf_file_path>"));
                 (lit "text", VStr []) ]
          ++ [10%N] |})
  /\ exit_status
       (fst (main (fun _ _ => Returns (lit "never read"))
               [lit "extract_pdf_text.py"] fresh)) = 1%Z
  /\ calls
       (snd (main (fun _ _ => Returns (lit "never read"))
               [lit "extract_pdf_text.py"] fresh)) = calls fresh.
Proof.
  apply (C4_usage_error (fun _ _ => Returns (lit "never read"))
           [lit "extract_pdf_text.py"] fresh).
  simpl. lia.
Defined.

(** C5. For every run of [main], the exit status is 0 exactly when the
    record it printed has [success = true], and it is 1 on every failure:
    a wrong number of arguments, an error of the extractor, and a
    document without text. *)
Theorem C5_exit_status :
  forall (extract_text : extractor) (argv : list str) (w : world),
    (exists d b,
        ((List.length argv <> 2%nat /\ d = failure_record usage_message)
         \/ (exists script path,
               argv = [script; path]
               /\ fst (extract_pdf_text extract_text path w) = Val d))
        /\ stdout (snd (main extract_text argv w))
           = stdout w ++ Json.dumps d ++ [10%N]
        /\ get d (lit "success") = Some (VBool b)
        /\ (exit_status (fst (main extract_text argv w)) = 0%Z <-> b = true)
        /\ (b = false -> exit_status (fst (main extract_text argv w)) = 1%Z))
    /\ (List.length argv <> 2%nat ->
        exit_status (fst (main extract_text argv w)) = 1%Z)
    /\ (forall script path cls message,
           argv = [script; path] ->
           extract_text path fixed_laparams = Raises cls message ->
           exit_status (fst (main extract_text argv w)) = 1%Z)
    /\ (forall script path raw,
           argv = [script; path] ->
           extract_text path fixed_laparams = Returns raw ->
           blank raw = true ->
           exit_status (fst (main extract_text argv w)) = 1%Z)
    /\ (forall script path raw,
           argv = [script; path] ->
           extract_text path fixed_laparams = Returns raw ->
           blank raw = false ->
           exit_status (fst (main extract_text argv w)) = 0%Z).
Proof.
  intros ext argv w.
  assert (forall script path d,
             argv = [script; path] ->
             extract_pdf_text ext path w = (Val d, called path fixed_laparams w) ->
             forall b, get d (lit "success") = Some (VBool b) ->
             exit_status (fst (main ext argv w)) = (if b then 0 else 1)%Z) as K.
  { intros script path d -> E b S.
    assert (is_extraction_result d = true) as R.
    { destruct (ScriptFacts.extract_returns_dict ext path w) as [d' [E' R]].
      congruence. }
    destruct (ScriptFacts.main_one_path ext path w script d _ E R) as [b' [S' Mn]].
    rewrite Mn. rewrite S in S'. injection S' as <-. reflexivity. }
  split; [|split; [|split; [|split]]].
  - destruct (ScriptFacts.main_cases ext argv w)
      as [d [R [[L [D Mn]]|[script [path [b [A [E [S Mn]]]]]]]]].
    + exists d, false. rewrite Mn, D. simpl.
      repeat split; trivial; try discriminate. now left.
    + exists d, b. rewrite Mn. simpl. repeat split; trivial.
      * right. exists script, path. now rewrite E.
      * destruct b; [reflexivity | discriminate].
      * now intros ->.
      * now intros ->.
  - intros L. now rewrite (ScriptFacts.main_wrong_arity ext w argv L).
  - intros script path cls message A E.
    now rewrite (K script path _ A (ScriptFacts.extract_raises ext path w cls message E) false).
  - intros script path raw A E B.
    now rewrite (K script path _ A (ScriptFacts.extract_returns_blank ext path w raw E B) false).
  - intros script path raw A E B.
    now rewrite (K script path _ A (ScriptFacts.extract_returns_text ext path w raw E B) true).
Qed.

(** The four cases on one extractor: it finds text in [a.pdf], nothing
    but blanks in [scan.pdf], and fails on every other path. *)
Lemma C5_exit_status_witness :
  exit_status (fst (main sample_extractor [lit "x.py"] fresh)) = 1%Z
  /\ exit_status (fst (main sample_extractor [lit "x.py"; lit "none.pdf"] fresh)) = 1%Z
  /\ exit_status (fst (main sample_extractor [lit "x.py"; lit "scan.pdf"] fresh)) = 1%Z
  /\ exit_status (fst (main sample_extractor [lit "x.py"; lit "a.pdf"] fresh)) = 0%Z.
Proof.
  pose (ext := sample_extractor). fold ext.
  split; [|split; [|split]].
  - apply (proj1 (proj2 (C5_exit_status ext [lit "x.py"] fresh))).
    simpl. lia.
  - apply (proj1 (proj2 (proj2 (C5_exit_status ext [lit "x.py"; lit "none.pdf"] fresh)))
             (lit "x.py") (lit "none.pdf") "FileNotFoundError"%string (lit "No such file"));
      reflexivity.
  - apply (proj1 (proj2 (proj2 (proj2 (C5_exit_status ext [lit "x.py"; lit "scan.pdf"] fresh))))
             (lit "x.py") (lit "scan.pdf") [32; 10]%N);
      reflexivity.
  - apply (proj2 (proj2 (proj2 (proj2 (C5_exit_status ext [lit "x.py"; lit "a.pdf"] fresh))))
             (lit "x.py") (lit "a.pdf") (lit " Hello "));
      reflexivity.
Defined.

(** C6. Every run of [main], whatever the arguments and whatever the
    extractor does, writes exactly one line to standard output, and the
    line is a well-formed JSON object serializing an ExtractionResult: the
    usage record, or the record [extract_pdf_text] returned (a success,
    the no-text failure or a caught error).  The line holds printable
    ASCII only, so the single line feed of the output is the one that
    ends it. *)
Theorem C6_one_json_line :
  forall (extract_text : extractor) (argv : list str),
    exists d,
      ((List.length argv <> 2%nat /\ d = failure_record usage_message)
       \/ (exists script path,
             argv = [script; path]
             /\ fst (extract_pdf_text extract_text path fresh) = Val d))
      /\ is_extraction_result d = true
      /\ stdout (fst (run extract_text argv)) = Json.dumps d ++ [10%N]
      /\ Json.json_object (Json.dumps d)
      /\ Json.json_text (Json.dumps d)
      /\ forallb Json.printable (Json.dumps d) = true
      /\ ~ In 10%N (Json.dumps d)
      /\ count_occ N.eq_dec (stdout (fst (run extract_text argv))) 10%N = 1%nat.
Proof.
  intros ext argv.
  destruct (ScriptFacts.main_cases ext argv fresh)
    as [d [R [[L [D Mn]]|[script [path [b [A [E [S Mn]]]]]]]]];
    exists d; unfold run; rewrite Mn; cbn [fst snd printed stdout fresh called app];
    (split; [|split; [exact R|split; [reflexivity|]]]).
  1: now left.
  2: right; exists script, path; now rewrite E.
  all: pose proof (JsonFacts.dumps_printable d) as P;
    pose proof (JsonFacts.printable_no_newline _ P) as NL;
    pose proof (JsonFacts.dumps_json_object d) as J;
    (split; [exact J|]);
    (split; [now apply JsonFacts.json_object_text|]);
    (split; [exact P|]);
    (split; [exact NL|]);
    rewrite count_occ_app, (proj1 (count_occ_not_In N.eq_dec _ _) NL);
    reflexivity.
Qed.

(** C7. Every record the program produces, by [extract_pdf_text] or on
    the usage path of [main], has the shape of an ExtractionResult:
    [success] is a boolean; [error] is a string exactly when [success] is
    false, and null otherwise; [text] is empty when [success] is false;
    [length] is present only when [success] is true, and then it is the
    number of characters of [text]. *)
Theorem C7_result_shape :
  forall (extract_text : extractor),
    (forall pdf_path w,
        exists d,
          fst (extract_pdf_text extract_text pdf_path w) = Val d
          /\ result_shape d)
    /\ (forall argv w,
           List.length argv <> 2%nat ->
           exists d,
             snd (main extract_text argv w) = printed (Json.dumps d) w
             /\ result_shape d).
Proof.
  intros ext. split.
  - intros path w.
    destruct (ScriptFacts.extract_returns_dict ext path w) as [d [E R]].
    exists d. rewrite E. split; [reflexivity|].
    now apply ScriptFacts.is_extraction_result_shape.
  - intros argv w L. exists (failure_record usage_message).
    rewrite (ScriptFacts.main_wrong_arity ext w argv L).
    split; [reflexivity|].
    now apply ScriptFacts.is_extraction_result_shape.
Qed.

(** Two arguments too many. *)
Lemma C7_result_shape_witness :
  exists d,
    snd (main sample_extractor [lit "x.py"; lit "a.pdf"; lit "b.pdf"] fresh)
    = printed (Json.dumps d) fresh
    /\ result_shape d.
Proof.
  apply (proj2 (C7_result_shape sample_extractor)
           [lit "x.py"; lit "a.pdf"; lit "b.pdf"] fresh).
  simpl. lia.
Defined.

(** C8. Extraction is a function of what the extractor answers: two runs
    on a path for which the extractor gives the same answer (the file was
    not modified in between) return the same record, whatever else
    happened before them; in particular the same [text] and the same
    [length]. *)
Theorem C8_deterministic :
  forall (first_run second_run : extractor) (pdf_path : str) (w1 w2 : world),
    first_run pdf_path fixed_laparams = second_run pdf_path fixed_laparams ->
    exists d1 d2,
      fst (extract_pdf_text first_run pdf_path w1) = Val d1
      /\ fst (extract_pdf_text second_run pdf_path w2) = Val d2
      /\ get d1 (lit "text") = get d2 (lit "text")
      /\ get d1 (lit "length") = get d2 (lit "length")
      /\ d1 = d2.
Proof.
  intros ext1 ext2 path w1 w2 H.
  assert (forall ext w,
             ext path fixed_laparams = ext1 path fixed_laparams ->
             fst (extract_pdf_text ext path w)
             = fst (extract_pdf_text ext1 path w1)) as Same.
  { intros ext w X.
    destruct (ext1 path fixed_laparams) as [raw|cls message] eqn:O.
    - destruct (blank raw) eqn:B.
      + now rewrite (ScriptFacts.extract_returns_blank ext path w raw X B),
          (ScriptFacts.extract_returns_blank ext1 path w1 raw O B).
      + now rewrite (ScriptFacts.extract_returns_text ext path w raw X B),
          (ScriptFacts.extract_returns_text ext1 path w1 raw O B).
    - now rewrite (ScriptFacts.extract_raises ext path w cls message X),
        (ScriptFacts.extract_raises ext1 path w1 cls message O). }
  destruct (ScriptFacts.extract_returns_dict ext1 path w1) as [d [E _]].
  exists d, d. rewrite (Same ext2 w2 (eq_sym H)), E. repeat split.
Qed.

(** The second run starts where the first one ended. *)
Lemma C8_deterministic_witness :
  exists d1 d2,
    fst (extract_pdf_text sample_extractor (lit "a.pdf") fresh) = Val d1
    /\ fst (extract_pdf_text sample_extractor (lit "a.pdf")
              (snd (extract_pdf_text sample_extractor (lit "a.pdf") fresh)))
       = Val d2
    /\ get d1 (lit "text") = get d2 (lit "text")
    /\ get d1 (lit "length") = get d2 (lit "length")
    /\ d1 = d2.
Proof.
  apply (C8_deterministic sample_extractor sample_extractor (lit "a.pdf") fresh
           (snd (extract_pdf_text sample_extractor (lit "a.pdf") fresh))).
  reflexivity.
Defined.

(** C9. The configuration handed to the extractor is a constant: line
    margin 0.5, word margin 0.1, character margin 2.0, boxes flow 0.5 and
    [all_texts = False], whatever the path, the arguments and the
    extractor.  [extract_pdf_text] makes one call, with that
    configuration, and every call recorded in a run of [main] carries
    it. *)
Theorem C9_fixed_configuration :
  forall (extract_text : extractor),
    (forall pdf_path w,
        calls (snd (extract_pdf_text extract_text pdf_path w))
        = calls w
          ++ [ (pdf_path,
                {| line_margin := 0.5;
                   word_margin := 0.1;
                   char_margin := 2.0;
                   boxes_flow := 0.5;
                   all_texts := false |}) ])
    /\ (forall argv,
           Forall (fun call => snd call = fixed_laparams)
             (calls (fst (run extract_text argv)))).
Proof.
  intros ext. split.
  - intros path w.
    destruct (ScriptFacts.extract_returns_dict ext path w) as [d [E _]].
    now rewrite E.
  - intros argv. unfold run.
    destruct (ScriptFacts.main_cases ext argv fresh)
      as [d [R [[L [D Mn]]|[script [path [b [A [E [S Mn]]]]]]]]];
      rewrite Mn; simpl; repeat constructor.
Qed.

(* ================================================================= *)
(** ** Further properties of [extract_pdf_text] *)

Module Further.

Lemma strip_length raw : (List.length (strip raw) <= List.length raw)%nat.
Proof.
  destruct (PyFacts.strip_split raw) as [p [q [E _]]].
  rewrite E at 2. rewrite !length_app. lia.
Qed.

Lemma strip_same_length raw :
  List.length (strip raw) = List.length raw -> strip raw = raw.
Proof.
  intros H. destruct (PyFacts.strip_split raw) as [p [q [E _]]].
  rewrite E in H at 2. rewrite !length_app in H.
  destruct p; [|simpl in H; lia]. destruct q; [|simpl in H; lia].
  rewrite E at 2. simpl. now rewrite List.app_nil_r.
Qed.

Lemma strip_fixed_iff raw :
  strip raw = raw <->
  starts_with_space raw = false /\ ends_with_space raw = false.
Proof.
  split.
  - intros <-. split; [apply PyFacts.strip_head | apply PyFacts.strip_tail].
  - intros [Hs He]. unfold strip.
    rewrite (PyFacts.lstrip_fixed raw Hs). now apply PyFacts.rstrip_fixed.
Qed.

Lemma blank_iff_strip_nil raw : blank raw = true <-> strip raw = [].
Proof. split; [apply PyFacts.strip_blank | apply PyFacts.strip_nil]. Qed.

(** How the two kinds of record start when printed. *)
Lemma dumps_failure_head m :
  Json.dumps (failure_record m)
  = lit "{" ++ Json.quoted (lit "success") ++ lit ": false, "
    ++ Json.dumps_item (lit "error", VStr m) ++ lit ", "
    ++ Json.dumps_item (lit "text", VStr []) ++ lit "}".
Proof.
  unfold Json.dumps, failure_record. cbn [map Json.join].
  unfold Json.dumps_item at 1. cbn [fst snd Json.dumps_value].
  rewrite <- !app_assoc. reflexivity.
Qed.

Lemma dumps_success_head t :
  Json.dumps (success_record t)
  = lit "{" ++ Json.quoted (lit "success") ++ lit ": true, "
    ++ Json.dumps_item (lit "text", VStr t) ++ lit ", "
    ++ Json.dumps_item (lit "length", VInt (len t)) ++ lit ", "
    ++ Json.dumps_item (lit "error", VNone) ++ lit "}".
Proof.
  unfold Json.dumps, success_record. cbn [map Json.join].
  unfold Json.dumps_item at 1. cbn [fst snd Json.dumps_value].
  rewrite <- !app_assoc. reflexivity.
Qed.

End Further.

(** X1. [main] passes its one argument to the extractor as it is, without
    validating or normalising it (an empty path included), and makes
    exactly one call; with any other number of arguments it makes none.
    The name of the script plays no part. *)
Theorem X1_one_call_verbatim_path :
  forall (extract_text : extractor) (argv : list str) (w : world),
    calls (snd (main extract_text argv w))
    = calls w
      ++ match argv with
         | [_; pdf_path] => [(pdf_path, fixed_laparams)]
         | _ => []
         end.
Proof.
  intros ext argv w.
  destruct (ScriptFacts.main_cases ext argv w)
    as [d [R [[L [D Mn]]|[script [path [b [A [E [S Mn]]]]]]]]]; rewrite Mn.
  - destruct argv as [|a [|b [|c r]]]; simpl;
      try (now rewrite List.app_nil_r). now contradiction L.
  - subst argv. reflexivity.
Qed.

(** X2. [main] always ends in [sys.exit], with the code 0 or 1: it never
    returns to its caller, and neither [sys.argv[1]] nor
    [result["success"]] ever raises ([IndexError], [KeyError]), whatever
    the arguments and the extractor. *)
Theorem X2_main_exits_0_or_1 :
  forall (extract_text : extractor) (argv : list str) (w : world),
    exists code,
      fst (main extract_text argv w) = Raise (SystemExit code)
      /\ (code = 0 \/ code = 1)%Z.
Proof.
  intros ext argv w.
  destruct (ScriptFacts.main_cases ext argv w)
    as [d [R [[L [D Mn]]|[script [path [b [A [E [S Mn]]]]]]]]]; rewrite Mn.
  - exists 1%Z. split; [reflexivity | now right].
  - exists (if b then 0 else 1)%Z. split; [reflexivity|].
    destruct b; [now left | now right].
Qed.

(** X3. The [error] field of the record tells what happened: it is null
    exactly when the extractor returned a text that is not blank, the
    no-text message exactly when it returned a blank text, and a message
    starting with ["PDF extraction failed: "] exactly when it raised; the
    usage message of [main] is never the error of [extract_pdf_text]. *)
Theorem X3_error_field_classifies :
  forall (extract_text : extractor) (pdf_path : str) (w : world) (d : dict),
    fst (extract_pdf_text extract_text pdf_path w) = Val d ->
    (get d (lit "error") = Some VNone
     <-> exists raw,
          extract_text pdf_path fixed_laparams = Returns raw
          /\ blank raw = false)
    /\ (get d (lit "error") = Some (VStr no_text_message)
        <-> exists raw,
             extract_text pdf_path fixed_laparams = Returns raw
             /\ blank raw = true)
    /\ ((exists m,
            get d (lit "error")
            = Some (VStr (lit "PDF extraction failed: " ++ m)))
        <-> exists cls m,
             extract_text pdf_path fixed_laparams = Raises cls m)
    /\ get d (lit "error") <> Some (VStr usage_message).
Proof.
  intros ext path w d E.
  destruct (ext path fixed_laparams) as [raw|cls message] eqn:X;
    [destruct (blank raw) eqn:B|];
    [ rewrite (ScriptFacts.extract_returns_blank ext path w raw X B) in E
    | rewrite (ScriptFacts.extract_returns_text ext path w raw X B) in E
    | rewrite (ScriptFacts.extract_raises ext path w cls message X) in E ];
    injection E as <-;
    (split; [|split; [|split]]); try split;
    try discriminate; try reflexivity;
    try (intros [r [Hr Br]];
         first [discriminate Hr | injection Hr as <-; congruence]);
    try (intros [c [m Hm]]; discriminate Hm);
    try (intros H; cbv in H; discriminate H);
    try (intros [m Hm]; cbv in Hm; discriminate Hm);
    try (intros _; now exists raw);
    try (intros _; now exists message);
    try (intros _; now exists cls, message).
Qed.

Lemma X3_error_field_classifies_witness :
  (get (failure_record no_text_message) (lit "error") = Some VNone
   <-> exists raw,
        sample_extractor (lit "scan.pdf") fixed_laparams = Returns raw
        /\ blank raw = false)
  /\ (get (failure_record no_text_message) (lit "error")
      = Some (VStr no_text_message)
      <-> exists raw,
           sample_extractor (lit "scan.pdf") fixed_laparams = Returns raw
           /\ blank raw = true)
  /\ ((exists m,
          get (failure_record no_text_message) (lit "error")
          = Some (VStr (lit "PDF extraction failed: " ++ m)))
      <-> exists cls m,
           sample_extractor (lit "scan.pdf") fixed_laparams = Raises cls m)
  /\ get (failure_record no_text_message) (lit "error")
     <> Some (VStr usage_message).
Proof.
  apply (X3_error_field_classifies sample_extractor (lit "scan.pdf") fresh
           (failure_record no_text_message)).
  reflexivity.
Defined.

(** X4. On success the text is the extractor's text itself exactly when
    that text neither starts nor ends with whitespace; otherwise it is
    strictly shorter.  The [length] field never exceeds the number of
    characters the extractor returned. *)
Theorem X4_text_unchanged_iff_trimmed :
  forall (extract_text : extractor) (pdf_path raw : str) (w : world),
    extract_text pdf_path fixed_laparams = Returns raw ->
    blank raw = false ->
    exists t,
      fst (extract_pdf_text extract_text pdf_path w) = Val (success_record t)
      /\ (len t <= len raw)%Z
      /\ (t = raw
          <-> starts_with_space raw = false /\ ends_with_space raw = false)
      /\ (t <> raw -> (len t < len raw)%Z).
Proof.
  intros ext path raw w E B. exists (strip raw).
  rewrite (ScriptFacts.extract_returns_text ext path w raw E B).
  pose proof (Further.strip_length raw) as L.
  split; [reflexivity|]. split; [unfold len; lia|].
  split; [apply Further.strip_fixed_iff|].
  intros N. unfold len.
  destruct (Nat.eq_dec (List.length (strip raw)) (List.length raw)) as [Q|Q];
    [|lia].
  now apply Further.strip_same_length in Q.
Qed.

Lemma X4_text_unchanged_iff_trimmed_witness :
  exists t,
    fst (extract_pdf_text sample_extractor (lit "a.pdf") fresh)
    = Val (success_record t)
    /\ (len t <= len (lit " Hello "))%Z
    /\ (t = lit " Hello "
        <-> starts_with_space (lit " Hello ") = false
            /\ ends_with_space (lit " Hello ") = false)
    /\ (t <> lit " Hello " -> (len t < len (lit " Hello "))%Z).
Proof.
  apply (X4_text_unchanged_iff_trimmed sample_extractor (lit "a.pdf")
           (lit " Hello ") fresh); reflexivity.
Defined.

(** X5. [extract_pdf_text] writes nothing to standard output, whatever
    the extractor does: printing is left to [main]. *)
Theorem X5_extract_prints_nothing :
  forall (extract_text : extractor) (pdf_path : str) (w : world),
    stdout (snd (extract_pdf_text extract_text pdf_path w)) = stdout w.
Proof.
  intros ext path w.
  destruct (ScriptFacts.extract_returns_dict ext path w) as [d [E _]].
  now rewrite E.
Qed.

(** X6. Every failure record of [extract_pdf_text] carries an error
    message that is not empty, also when the exception has an empty
    message: the message is then the prefix alone. *)
Theorem X6_failure_message_not_empty :
  forall (extract_text : extractor) (pdf_path : str) (w : world) (d : dict),
    fst (extract_pdf_text extract_text pdf_path w) = Val d ->
    get d (lit "success") = Some (VBool false) ->
    (exists m, get d (lit "error") = Some (VStr m) /\ (23 <= len m)%Z)
    /\ (forall cls,
           extract_text pdf_path fixed_laparams = Raises cls [] ->
           get d (lit "error") = Some (VStr (lit "PDF extraction failed: "))).
Proof.
  intros ext path w d E S.
  destruct (ext path fixed_laparams) as [raw|cls message] eqn:X.
  - destruct (blank raw) eqn:B.
    + rewrite (ScriptFacts.extract_returns_blank ext path w raw X B) in E.
      injection E as <-. split; [|discriminate].
      exists no_text_message. split; [reflexivity | unfold len; simpl; lia].
    + rewrite (ScriptFacts.extract_returns_text ext path w raw X B) in E.
      injection E as <-. discriminate S.
  - rewrite (ScriptFacts.extract_raises ext path w cls message X) in E.
    injection E as <-. split.
    + exists (lit "PDF extraction failed: " ++ message).
      split; [reflexivity|]. unfold len. rewrite length_app. simpl. lia.
    + intros c H. injection H as _ ->. reflexivity.
Qed.

(** An exception without a message. *)
Lemma X6_failure_message_not_empty_witness :
  (exists m,
      get (failure_record (lit "PDF extraction failed: ")) (lit "error")
      = Some (VStr m) /\ (23 <= len m)%Z)
  /\ (forall cls,
         (fun (_ : str) (_ : LAParams) => Raises "AssertionError" [])
           (lit "a.pdf") fixed_laparams = Raises cls [] ->
         get (failure_record (lit "PDF extraction failed: ")) (lit "error")
         = Some (VStr (lit "PDF extraction failed: "))).
Proof.
  apply (X6_failure_message_not_empty
           (fun _ _ => Raises "AssertionError" []) (lit "a.pdf") fresh
           (failure_record (lit "PDF extraction failed: ")));
    reflexivity.
Defined.

(** X7. The keys of every record are distinct, so the printed object
    names no field twice: a success record has the four keys [success],
    [text], [length], [error], a failure record the three keys [success],
    [error], [text], in that order. *)
Theorem X7_record_keys :
  forall (extract_text : extractor) (pdf_path : str) (w : world),
    exists d,
      fst (extract_pdf_text extract_text pdf_path w) = Val d
      /\ NoDup (map fst d)
      /\ ((get d (lit "success") = Some (VBool true)
           /\ map fst d
              = [lit "success"; lit "text"; lit "length"; lit "error"])
          \/ (get d (lit "success") = Some (VBool false)
              /\ map fst d = [lit "success"; lit "error"; lit "text"])).
Proof.
  intros ext path w.
  assert (forall m, NoDup (map fst (failure_record m))) as NF.
  { intros m. simpl.
    repeat (constructor; [simpl; intros H; repeat destruct H as [H|H];
                          try discriminate H; exact H|]).
    constructor. }
  destruct (ext path fixed_laparams) as [raw|cls message] eqn:X.
  - destruct (blank raw) eqn:B.
    + eexists. rewrite (ScriptFacts.extract_returns_blank ext path w raw X B).
      split; [reflexivity|]. split; [apply NF|]. right. now split.
    + eexists. rewrite (ScriptFacts.extract_returns_text ext path w raw X B).
      split; [reflexivity|]. split; [|left; now split].
      simpl.
      repeat (constructor; [simpl; intros H; repeat destruct H as [H|H];
                            try discriminate H; exact H|]).
      constructor.
  - eexists. rewrite (ScriptFacts.extract_raises ext path w cls message X).
    split; [reflexivity|]. split; [apply NF|]. right. now split.
Qed.

(** X8. Whitespace around the extractor's text never shows in the result:
    two texts that are equal once stripped give the same record. *)
Theorem X8_surrounding_whitespace_ignored :
  forall (first second : extractor) (pdf_path raw1 raw2 : str) (w1 w2 : world),
    first pdf_path fixed_laparams = Returns raw1 ->
    second pdf_path fixed_laparams = Returns raw2 ->
    strip raw1 = strip raw2 ->
    fst (extract_pdf_text first pdf_path w1)
    = fst (extract_pdf_text second pdf_path w2).
Proof.
  intros ext1 ext2 path raw1 raw2 w1 w2 E1 E2 S.
  destruct (blank raw1) eqn:B1.
  - assert (blank raw2 = true) as B2.
    { apply Further.blank_iff_strip_nil. rewrite <- S.
      now apply Further.blank_iff_strip_nil. }
    now rewrite (ScriptFacts.extract_returns_blank ext1 path w1 raw1 E1 B1),
      (ScriptFacts.extract_returns_blank ext2 path w2 raw2 E2 B2).
  - assert (blank raw2 = false) as B2.
    { destruct (blank raw2) eqn:B2; [|reflexivity].
      apply Further.blank_iff_strip_nil in B2. rewrite <- S in B2.
      apply Further.blank_iff_strip_nil in B2. congruence. }
    rewrite (ScriptFacts.extract_returns_text ext1 path w1 raw1 E1 B1),
      (ScriptFacts.extract_returns_text ext2 path w2 raw2 E2 B2).
    now rewrite S.
Qed.

(** The same page with and without a form feed at its end. *)
Lemma X8_surrounding_whitespace_ignored_witness :
  fst (extract_pdf_text (fun _ _ => Returns (lit "Hello" ++ [10; 12]%N))
         (lit "a.pdf") fresh)
  = fst (extract_pdf_text (fun _ _ => Returns (lit "  Hello"))
           (lit "a.pdf") fresh).
Proof.
  apply (X8_surrounding_whitespace_ignored
           (fun _ _ => Returns (lit "Hello" ++ [10; 12]%N))
           (fun _ _ => Returns (lit "  Hello"))
           (lit "a.pdf") (lit "Hello" ++ [10; 12]%N) (lit "  Hello")
           fresh fresh); reflexivity.
Defined.

(** X9. The exit status can be read off the output: a run ends with
    status 0 exactly when its line starts with the [success] key set to
    [true], and with status 1 exactly when it starts with the [success]
    key set to [false]. *)
Theorem X9_status_matches_output :
  forall (extract_text : extractor) (argv : list str),
    (snd (run extract_text argv) = 0%Z
     <-> exists rest,
          stdout (fst (run extract_text argv))
          = lit "{" ++ Json.quoted (lit "success") ++ lit ": true, " ++ rest)
    /\ (snd (run extract_text argv) = 1%Z
        <-> exists rest,
             stdout (fst (run extract_text argv))
             = lit "{" ++ Json.quoted (lit "success") ++ lit ": false, " ++ rest).
Proof.
  intros ext argv. unfold run.
  pose proof Further.dumps_failure_head as F.
  pose proof Further.dumps_success_head as T.
  assert (forall m rest,
             Json.dumps (failure_record m) ++ [10%N]
             <> lit "{" ++ Json.quoted (lit "success") ++ lit ": true, " ++ rest)
    as NF by (intros m rest; rewrite F; discriminate).
  assert (forall t rest,
             Json.dumps (success_record t) ++ [10%N]
             <> lit "{" ++ Json.quoted (lit "success") ++ lit ": false, " ++ rest)
    as NT by (intros t rest; rewrite T; discriminate).
  destruct (ScriptFacts.main_cases ext argv fresh)
    as [d [R [[L [D Mn]]|[script [path [b [A [E [S Mn]]]]]]]]]; rewrite Mn;
    cbn [fst snd exit_status printed stdout fresh called app].
  - subst d. split; split; try discriminate; try reflexivity.
    + intros [rest H]. now apply NF in H.
    + intros _. eexists. rewrite F. rewrite <- !app_assoc. reflexivity.
  - destruct (ext path fixed_laparams) as [raw|cls message] eqn:X;
      [destruct (blank raw) eqn:B|];
      [ rewrite (ScriptFacts.extract_returns_blank ext path fresh raw X B) in E
      | rewrite (ScriptFacts.extract_returns_text ext path fresh raw X B) in E
      | rewrite (ScriptFacts.extract_raises ext path fresh cls message X) in E ];
      injection E as <-; injection S as <-;
      split; split; try discriminate; try reflexivity;
      try (intros [rest H]; first [now apply NF in H | now apply NT in H]);
      intros _; eexists; rewrite ?F, ?T; rewrite <- !app_assoc; reflexivity.
Qed.
